(** * Electricity_App: the cost-comparison engine of [logic.py]

    A shallow embedding of [ElectricityCalculator] and the properties of its
    calculation functions.

    Conventions of the embedding.
    - Python numbers (int and float alike) are exact rationals [Q]; rounding
      of binary floating point is not modelled.  Results that the code passes
      through [int(...)] are integers [Z].
    - [int(x)] truncates towards zero; it is [py_int], not [Qfloor].
    - The master table ([master_df]) is the list of its rows, in row order.
      A price or incentive cell holds a number or some other object (text);
      arithmetic on the latter raises [TypeError].
    - A function that can raise returns [result]; [get_comparison], which
      catches every exception of the per-plan calculation, returns a list. *)

From Stdlib Require Import ZArith QArith Qround Lia Lqa.
From Stdlib Require Import List String Ascii Bool.
From Stdlib Require Import Sorting.Sorted Sorting.Permutation.
From Stdlib Require Import DecimalString DecimalPos DecimalN.
Import ListNotations.

Local Open Scope Q_scope.

(** ** Numbers *)

(** [int(x)] on a number: truncation towards zero. *)
Definition py_int (x : Q) : Z := Z.quot (Qnum x) (Zpos (Qden x)).

(** [x < y] and [x > 0] as the interpreter decides them. *)
Definition Qltb (x y : Q) : bool := negb (Qle_bool y x).

(** The built-in [sum]: starts from 0 and adds from the left. *)
Definition py_sum (l : list Q) : Q := fold_left Qplus l 0.

(** ** Exceptions *)

Inductive exn : Type :=
| ValueError_plan_not_found (company_name contract_type : string)
| ValueError_power_factor_required
| TypeError.

Inductive result (A : Type) : Type :=
| Ok (a : A)
| Raise (e : exn).
Arguments Ok {A} a.
Arguments Raise {A} e.

Definition bind {A B : Type} (m : result A) (k : A -> result B) : result B :=
  match m with
  | Ok a => k a
  | Raise e => Raise e
  end.

Notation "x <- m ;; k" := (bind m (fun x => k))
  (at level 61, m at next level, right associativity).

(** ** calculate_plan_costs *)

Record PlanCosts : Type := {
  proposed_cost : Z;
  reduction_amount : Z;
  reduction_pct : Q;
  avg_reduction : Z
}.

Definition calculate_plan_costs
    (total_actual_cost plan_rate : Q) (calc_months : Z) : PlanCosts :=
  let proposed_cost := py_int (total_actual_cost * plan_rate) in
  let reduction_amount := py_int (total_actual_cost - inject_Z proposed_cost) in
  let reduction_pct :=
    if Qltb 0 total_actual_cost
    then (inject_Z reduction_amount / total_actual_cost) * 100
    else 0 in
  let avg_reduction :=
    if (calc_months >? 0)%Z
    then py_int (inject_Z reduction_amount / inject_Z calc_months)
    else 0%Z in
  {| proposed_cost := proposed_cost;
     reduction_amount := reduction_amount;
     reduction_pct := reduction_pct;
     avg_reduction := avg_reduction |}.

(** ** The master table *)

(** A cell of a numeric column: a number, or another object read from the
    table on which arithmetic raises [TypeError]. *)
Inductive cell : Type :=
| Num (q : Q)
| Text (s : string).

Definition as_number (c : cell) : result Q :=
  match c with
  | Num q => Ok q
  | Text _ => Raise TypeError
  end.

Record PlanRow : Type := {
  company_name : string;
  contract_type : string;
  base_unit_price : cell;
  energy_unit_price : cell;
  incentive_shot : cell;
  incentive_running : cell
}.

Definition DataFrame : Type := list PlanRow.

Definition High_Voltage : string := "High Voltage".

(** ** calculate_cost *)

(** [master_df[(company_name == c) & (contract_type == t)]] *)
Definition matches (c t : string) (row : PlanRow) : bool :=
  String.eqb (company_name row) c && String.eqb (contract_type row) t.

Definition select_plan (master_df : DataFrame) (c t : string) : DataFrame :=
  filter (matches c t) master_df.

Record CostResult : Type := {
  monthly_costs : list Q;
  annual_cost : Q;
  monthly_base_charges : list Q;
  monthly_energy_charges : list Q;
  res_incentive_shot : Q;
  res_incentive_running : Q;
  net_annual_cost : Q
}.

(** The three lists the loop appends to. *)
Record Charges : Type := {
  base_charges : list Q;
  energy_charges : list Q;
  costs : list Q
}.

Definition no_charges : Charges :=
  {| base_charges := []; energy_charges := []; costs := [] |}.

(** The base charge of one month. *)
Definition base_charge_of
    (contract_type : string) (base_unit_price : cell) (capacity : Q)
    (power_factor : option Q) : result Q :=
  if String.eqb contract_type High_Voltage then
    match power_factor with
    | None => Raise ValueError_power_factor_required
    | Some pf =>
        p <- as_number base_unit_price ;;
        Ok (p * capacity * (185 - pf) / 100)
    end
  else
    p <- as_number base_unit_price ;;
    Ok (p * capacity).

(** [for usage in monthly_usage: ...] *)
Fixpoint monthly_loop
    (contract_type : string) (base_unit_price energy_unit_price : cell)
    (capacity : Q) (power_factor : option Q)
    (monthly_usage : list Q) (acc : Charges) : result Charges :=
  match monthly_usage with
  | [] => Ok acc
  | usage :: rest =>
      base_charge <-
        base_charge_of contract_type base_unit_price capacity power_factor ;;
      e <- as_number energy_unit_price ;;
      let energy_charge := e * usage in
      let monthly_cost := base_charge + energy_charge in
      monthly_loop contract_type base_unit_price energy_unit_price
        capacity power_factor rest
        {| base_charges := base_charges acc ++ [base_charge];
           energy_charges := energy_charges acc ++ [energy_charge];
           costs := costs acc ++ [monthly_cost] |}
  end.

(** The body of [calculate_cost] once the plan row is chosen. *)
Definition cost_of_plan
    (plan : PlanRow) (contract_type : string) (capacity : Q)
    (monthly_usage : list Q) (power_factor : option Q) : result CostResult :=
  acc <- monthly_loop contract_type (base_unit_price plan)
           (energy_unit_price plan) capacity power_factor
           monthly_usage no_charges ;;
  let annual_cost := py_sum (costs acc) in
  r <- as_number (incentive_running plan) ;;
  let annual_running_incentive := r * 12 in
  s <- as_number (incentive_shot plan) ;;
  Ok {| monthly_costs := costs acc;
        annual_cost := annual_cost;
        monthly_base_charges := base_charges acc;
        monthly_energy_charges := energy_charges acc;
        res_incentive_shot := s;
        res_incentive_running := annual_running_incentive;
        net_annual_cost := annual_cost - s - annual_running_incentive |}.

Definition calculate_cost
    (master_df : DataFrame) (company_name contract_type : string)
    (capacity : Q) (monthly_usage : list Q) (power_factor : option Q)
    : result CostResult :=
  match select_plan master_df company_name contract_type with
  | [] => Raise (ValueError_plan_not_found company_name contract_type)
  | plan :: _ =>
      cost_of_plan plan contract_type capacity monthly_usage power_factor
  end.

(** ** get_comparison *)

Record ComparisonEntry : Type := {
  cmp_company_name : string;
  cmp_annual_cost : Q;
  cmp_net_annual_cost : Q;
  cmp_incentive_shot : Q;
  cmp_incentive_running : Q;
  cmp_monthly_costs : list Q;
  cmp_monthly_base_charges : list Q;
  cmp_monthly_energy_charges : list Q
}.

Definition entry_of (plan : PlanRow) (r : CostResult) : ComparisonEntry :=
  {| cmp_company_name := company_name plan;
     cmp_annual_cost := annual_cost r;
     cmp_net_annual_cost := net_annual_cost r;
     cmp_incentive_shot := res_incentive_shot r;
     cmp_incentive_running := res_incentive_running r;
     cmp_monthly_costs := monthly_costs r;
     cmp_monthly_base_charges := monthly_base_charges r;
     cmp_monthly_energy_charges := monthly_energy_charges r |}.

(** One turn of [for _, plan in available_plans.iterrows()]: the plan is
    looked up again in [master_df] by its company name; an exception is
    caught and the row contributes nothing. *)
Definition comparison_step
    (master_df : DataFrame) (plan : PlanRow) (contract_type : string)
    (capacity : Q) (monthly_usage : list Q) (power_factor : option Q)
    : list ComparisonEntry :=
  match calculate_cost master_df (company_name plan) contract_type
          capacity monthly_usage power_factor with
  | Ok r => [entry_of plan r]
  | Raise _ => []
  end.

Fixpoint comparison_loop
    (master_df : DataFrame) (available_plans : list PlanRow)
    (contract_type : string) (capacity : Q) (monthly_usage : list Q)
    (power_factor : option Q) : list ComparisonEntry :=
  match available_plans with
  | [] => []
  | plan :: rest =>
      comparison_step master_df plan contract_type capacity monthly_usage
        power_factor
      ++ comparison_loop master_df rest contract_type capacity monthly_usage
           power_factor
  end.

(** [list.sort(key=...)]: a stable sort that compares keys with [<] only. *)
Fixpoint insert_by_key {A : Type} (key : A -> Q) (x : A) (l : list A)
    : list A :=
  match l with
  | [] => [x]
  | y :: l' =>
      if Qltb (key y) (key x) then y :: insert_by_key key x l' else x :: l
  end.

Fixpoint sort_by_key {A : Type} (key : A -> Q) (l : list A) : list A :=
  match l with
  | [] => []
  | x :: l' => insert_by_key key x (sort_by_key key l')
  end.

Definition available_plans_of (master_df : DataFrame) (contract_type0 : string)
    : list PlanRow :=
  filter (fun row => String.eqb (contract_type row) contract_type0) master_df.

Definition get_comparison
    (master_df : DataFrame) (contract_type : string) (capacity : Q)
    (monthly_usage : list Q) (power_factor : option Q)
    : list ComparisonEntry :=
  let available_plans := available_plans_of master_df contract_type in
  let comparison_results :=
    comparison_loop master_df available_plans contract_type capacity
      monthly_usage power_factor in
  sort_by_key cmp_net_annual_cost comparison_results.

(** ** calculate_item_breakdown *)

Record BillingItem : Type := {
  name : string;
  val : Q
}.

(** One output row; the four columns of the source, in its order: item name,
    current amount, proposed amount, difference, the last three as text. *)
Record BreakdownRow : Type := {
  col_item : string;
  col_current : string;
  col_proposed : string;
  col_difference : string
}.

(** Digits grouped in threes, on the reversed digit list. *)
Fixpoint group3 (rev_digits : list ascii) : list ascii :=
  match rev_digits with
  | a :: b :: c :: ((_ :: _) as rest) =>
      a :: b :: c :: ","%char :: group3 rest
  | _ => rev_digits
  end.

Definition group_thousands (digits : string) : string :=
  string_of_list_ascii (rev (group3 (rev (list_ascii_of_string digits)))).

(** [f"{n:,}"] *)
Definition format_commas (n : Z) : string :=
  let digits := NilZero.string_of_uint (N.to_uint (Z.abs_N n)) in
  if (n <? 0)%Z then String "-"%char (group_thousands digits)
  else group_thousands digits.

(** The yen sign, U+00A5, as its two UTF-8 bytes. *)
Definition yen_sign : string :=
  String (ascii_of_nat 194) (String (ascii_of_nat 165) EmptyString).

(** [f"¥{n:,}"] *)
Definition yen (n : Z) : string := yen_sign ++ format_commas n.

Definition item_total_current
    (item : BillingItem) (base_monthly_cost total_actual_cost : Q) : Z :=
  if Qltb 0 base_monthly_cost
  then py_int ((val item / base_monthly_cost) * total_actual_cost)
  else 0%Z.

Definition item_total_new (item_total_current : Z) (plan_rate : Q) : Z :=
  py_int (inject_Z item_total_current * plan_rate).

Definition breakdown_row
    (base_monthly_cost total_actual_cost plan_rate : Q) (item : BillingItem)
    : BreakdownRow :=
  let current := item_total_current item base_monthly_cost total_actual_cost in
  let new := item_total_new current plan_rate in
  {| col_item := name item;
     col_current := yen current;
     col_proposed := yen new;
     col_difference := yen (current - new) |}.

Fixpoint calculate_item_breakdown
    (billing_items : list BillingItem)
    (base_monthly_cost total_actual_cost plan_rate : Q) : list BreakdownRow :=
  match billing_items with
  | [] => []
  | item :: rest =>
      breakdown_row base_monthly_cost total_actual_cost plan_rate item
      :: calculate_item_breakdown rest base_monthly_cost total_actual_cost
           plan_rate
  end.

(** ** Vocabulary of the statements *)


Fixpoint sumZ (l : list Z) : Z :=
  match l with
  | [] => 0%Z
  | n :: rest => (n + sumZ rest)%Z
  end.





(** A decimal digit character. *)
Definition is_digit (c : ascii) : bool :=
  (Nat.leb 48 (nat_of_ascii c) && Nat.leb (nat_of_ascii c) 57)%bool.

(** ** load_master_prices ([data_loader.py]) *)

(** What [pd.read_csv] returns: the column names of the header line and the
    data lines.  The loader inspects the column names only. *)
Record CsvFrame : Type := {
  csv_columns : list string;
  csv_rows : list (list string)
}.

(** The exceptions that leave [load_master_prices]; [ReadError] stands for
    whatever [pd.read_csv] raised, which is passed on unchanged. *)
Inductive load_exn : Type :=
| FileNotFoundError (csv_path : string)
| ValueError_missing_columns (missing_columns : list string)
| ReadError.

Inductive load_result : Type :=
| Loaded (df : CsvFrame)
| LoadRaise (e : load_exn).

Definition required_columns : list string :=
  ["company_name"; "contract_type"; "base_unit_price"; "energy_unit_price";
   "incentive_shot"; "incentive_running"]%string.

(** [[col for col in required_columns if col not in df.columns]] *)
Definition missing_columns_of (df : CsvFrame) : list string :=
  filter (fun col => negb (existsb (String.eqb col) (csv_columns df)))
    required_columns.

(** The file system and the parser are the first two arguments:
    [file_exists] answers [Path(csv_path).exists()] and [read_csv] answers
    [pd.read_csv(csv_path)], [None] when it raises.  The messages printed
    before an exception is passed on are left out. *)
Definition load_master_prices
    (file_exists : string -> bool) (read_csv : string -> option CsvFrame)
    (csv_path : string) : load_result :=
  if negb (file_exists csv_path) then LoadRaise (FileNotFoundError csv_path)
  else
    match read_csv csv_path with
    | None => LoadRaise ReadError
    | Some df =>
        match missing_columns_of df with
        | [] => Loaded df
        | missing_columns =>
            LoadRaise (ValueError_missing_columns missing_columns)
        end
    end.

(** ** generate_excel_report *)

(** A text whose characters are counted and sliced: the list of its code
    points. *)
Definition pystr : Type := list N.

(** A year or month cell: a number, or a text in the total and the
    base-month lines. *)
Inductive label : Type :=
| IntLabel (n : Z)
| StrLabel (s : pystr).

(** A month record; the five keys of the source, in its order: year, month,
    usage in kWh, billed amount, input type. *)
Record MonthRecord : Type := {
  rec_year : label;
  rec_month : label;
  rec_usage : Q;
  rec_billed : Q;
  rec_input_type : pystr
}.

(** A plan of the simple mode, keys [p], [rate], [shot], [run]. *)
Record SimplePlan : Type := {
  plan_p : pystr;
  plan_rate : Q;
  plan_shot : Q;
  plan_run : Q
}.

(** A line of the monthly sheet: the month record followed by the two
    added columns, proposed amount and reduction. *)
Record MonthlyRow : Type := {
  mr_year : label;
  mr_month : label;
  mr_usage : Q;
  mr_billed : Q;
  mr_input_type : pystr;
  mr_proposed : Z;
  mr_reduction : Q
}.

(** A line of the item sheet: item, current, proposed, reduction. *)
Record ItemRow : Type := {
  ir_item : string;
  ir_current : Z;
  ir_proposed : Z;
  ir_reduction : Z
}.


Inductive report_exn : Type :=
| KeyError (column : pystr).

Inductive report_result (A : Type) : Type :=
| Written (a : A)
| ReportRaise (e : report_exn).
Arguments Written {A} a.
Arguments ReportRaise {A} e.

(** The column of billed amounts, the total label, the input type of the
    total line, and the two sheet-name suffixes, as code points. *)
Definition billed_column : pystr := [35531; 27714; 37329; 38989]%N.
Definition total_label : pystr := [21512; 35336]%N.
Definition dash : pystr := [45]%N.
Definition monthly_suffix : pystr := [95; 26376; 21029]%N.
Definition items_suffix : pystr := [95; 20869; 35379]%N.

(** [(df["billed"] * rate).astype(int)] and [df["billed"] - df["proposed"]],
    line by line. *)
Definition monthly_row (rate : Q) (rec : MonthRecord) : MonthlyRow :=
  let proposed := py_int (rec_billed rec * rate) in
  {| mr_year := rec_year rec;
     mr_month := rec_month rec;
     mr_usage := rec_usage rec;
     mr_billed := rec_billed rec;
     mr_input_type := rec_input_type rec;
     mr_proposed := proposed;
     mr_reduction := rec_billed rec - inject_Z proposed |}.

(** The total line: the sums of the four numeric columns. *)
Definition sum_row (df_month : list MonthlyRow) : MonthlyRow :=
  {| mr_year := StrLabel total_label;
     mr_month := StrLabel [];
     mr_usage := py_sum (map mr_usage df_month);
     mr_billed := py_sum (map mr_billed df_month);
     mr_input_type := dash;
     mr_proposed := sumZ (map mr_proposed df_month);
     mr_reduction := py_sum (map mr_reduction df_month) |}.

(** The monthly sheet of one plan.  A frame built from no record has no
    column, and selecting the billed amounts raises [KeyError]. *)
Definition monthly_sheet (plan : SimplePlan) (month_records : list MonthRecord)
    : report_result (list MonthlyRow) :=
  match month_records with
  | [] => ReportRaise (KeyError billed_column)
  | _ =>
      let df_month := map (monthly_row (plan_rate plan)) month_records in
      Written (df_month ++ [sum_row df_month])
  end.

Definition items_data
    (plan : SimplePlan) (billing_items : list BillingItem)
    (base_monthly_cost total_actual_cost : Q) : list ItemRow :=
  map (fun item =>
         let current_val :=
           if Qltb 0 base_monthly_cost
           then py_int ((val item / base_monthly_cost) * total_actual_cost)
           else 0%Z in
         let new_val := py_int (inject_Z current_val * plan_rate plan) in
         {| ir_item := name item;
            ir_current := current_val;
            ir_proposed := new_val;
            ir_reduction := (current_val - new_val)%Z |})
    billing_items.

(** [f"{plan['p'][:15]}_..."] *)
Definition sheet_name (plan : SimplePlan) (suffix : pystr) : pystr :=
  firstn 15 (plan_p plan) ++ suffix.


(** ** The input collection of [app.py] *)

(** The values the number fields return are arguments: [usage_of year month]
    and [billed_of year month]. *)
Definition years : list Z := [2024; 2025; 2026]%Z.
Definition months_of_year : list Z :=
  [1; 2; 3; 4; 5; 6; 7; 8; 9; 10; 11; 12]%Z.

(** The three input types and the base-month label, as code points. *)
Definition measured : pystr := [23455; 25968]%N.
Definition estimated : pystr := [22522; 28310; 20516; 25512; 35336]%N.
Definition base_value : pystr := [22522; 28310; 20516]%N.
Definition base_month : pystr := [22522; 28310; 26376]%N.


Record Collected : Type := {
  st_month_records : list MonthRecord;
  st_total_usage_kwh : Q;
  st_total_actual_cost : Q
}.

(** The body of the inner loop for one month. *)
Definition month_step
    (base_monthly_cost : Q) (year month : Z) (u p : Q) (st : Collected)
    : Collected :=
  if Qltb 0 u || Qltb 0 p then
    let cost_for_month := if Qltb 0 p then p else base_monthly_cost in
    {| st_month_records :=
         st_month_records st
         ++ [ {| rec_year := IntLabel year;
                 rec_month := IntLabel month;
                 rec_usage := u;
                 rec_billed := cost_for_month;
                 rec_input_type :=
                   if Qltb 0 p then measured else estimated |} ];
       st_total_usage_kwh := st_total_usage_kwh st + u;
       st_total_actual_cost := st_total_actual_cost st + cost_for_month |}
  else st.

(** [for year in [2024, 2025, 2026]: for month in range(1, 13): ...] *)
Definition collect_months
    (base_monthly_cost : Q) (usage_of billed_of : Z -> Z -> Q) : Collected :=
  fold_left
    (fun st year =>
       fold_left
         (fun st month =>
            month_step base_monthly_cost year month
              (usage_of year month) (billed_of year month) st)
         months_of_year st)
    years
    {| st_month_records := []; st_total_usage_kwh := 0;
       st_total_actual_cost := 0 |}.

Record Period : Type := {
  calc_months : nat;
  period_total_actual_cost : Q;
  period_total_usage_kwh : Q;
  period_month_records : list MonthRecord
}.

(** The period the calculations run on: with no month entered, one base
    month. *)
Definition calculation_period
    (base_monthly_cost : Q) (usage_of billed_of : Z -> Z -> Q) : Period :=
  let st := collect_months base_monthly_cost usage_of billed_of in
  let calc_months := List.length (st_month_records st) in
  if Nat.eqb calc_months 0 then
    {| calc_months := 1;
       period_total_actual_cost := base_monthly_cost;
       period_total_usage_kwh := st_total_usage_kwh st;
       period_month_records :=
         st_month_records st
         ++ [ {| rec_year := StrLabel dash;
                 rec_month := StrLabel base_month;
                 rec_usage := 0;
                 rec_billed := base_monthly_cost;
                 rec_input_type := base_value |} ] |}
  else
    {| calc_months := calc_months;
       period_total_actual_cost := st_total_actual_cost st;
       period_total_usage_kwh := st_total_usage_kwh st;
       period_month_records := st_month_records st |}.

(** [total_actual_cost / total_usage_kwh if total_usage_kwh > 0 else 0] *)
Definition avg_unit_price (period : Period) : Q :=
  if Qltb 0 (period_total_usage_kwh period)
  then period_total_actual_cost period / period_total_usage_kwh period
  else 0.

(** The months offered for input, in input order, and, for one of them,
    whether something was entered and the record then appended. *)
Definition year_months : list (Z * Z) := list_prod years months_of_year.

Definition entered (usage_of billed_of : Z -> Z -> Q) (ym : Z * Z) : bool :=
  Qltb 0 (usage_of (fst ym) (snd ym)) || Qltb 0 (billed_of (fst ym) (snd ym)).

Definition record_for
    (base_monthly_cost : Q) (usage_of billed_of : Z -> Z -> Q) (ym : Z * Z)
    : MonthRecord :=
  let p := billed_of (fst ym) (snd ym) in
  {| rec_year := IntLabel (fst ym);
     rec_month := IntLabel (snd ym);
     rec_usage := usage_of (fst ym) (snd ym);
     rec_billed := if Qltb 0 p then p else base_monthly_cost;
     rec_input_type := if Qltb 0 p then measured else estimated |}.

(** The totals kept beside the records are the sums over the records. *)
Definition totals_match (st : Collected) : Prop :=
  st_total_actual_cost st == py_sum (map rec_billed (st_month_records st))
  /\ st_total_usage_kwh st == py_sum (map rec_usage (st_month_records st)).

(** ** Facts about numbers *)

Lemma Qltb_true (x y : Q) : Qltb x y = true <-> x < y.
Proof.
  unfold Qltb. rewrite negb_true_iff.
  destruct (Qle_bool y x) eqn:E.
  - apply Qle_bool_iff in E. split; [discriminate | intro H; lra].
  - split; [intros _ | reflexivity].
    destruct (Qlt_le_dec x y) as [H | H]; [exact H |].
    apply Qle_bool_iff in H. congruence.
Qed.

Lemma Qltb_false (x y : Q) : Qltb x y = false <-> y <= x.
Proof.
  destruct (Qltb x y) eqn:E.
  - apply Qltb_true in E. split; [discriminate | intro; lra].
  - split; [intros _ | reflexivity].
    destruct (Qlt_le_dec x y) as [H | H]; [| exact H].
    apply Qltb_true in H. congruence.
Qed.

Lemma py_int_nonneg (x : Q) : 0 <= x -> py_int x = Qfloor x.
Proof.
  destruct x as [n d]. unfold Qle, py_int, Qfloor. simpl. intro H.
  apply Z.quot_div_nonneg; lia.
Qed.

Lemma py_int_ge_0 (x : Q) : 0 <= x -> (0 <= py_int x)%Z.
Proof.
  intro H. rewrite py_int_nonneg by exact H.
  change 0%Z with (Qfloor 0). apply Qfloor_resp_le. exact H.
Qed.



Lemma rate_shrinks (total rate : Q) :
  0 <= total -> rate <= 1 -> total * rate <= total.
Proof. intros Ht Hr. nra. Qed.

Lemma rate_keeps_sign (total rate : Q) :
  0 <= total -> 0 <= rate -> 0 <= total * rate.
Proof. intros Ht Hr. nra. Qed.

(** ** calculate_plan_costs *)

Section PlanCosts.

Variables total rate : Q.
Variable months : Z.
Hypothesis total_nonneg : 0 <= total.
Hypothesis rate_pos : 0 < rate.
Hypothesis rate_le_1 : rate <= 1.

Lemma proposed_cost_floor :
  proposed_cost (calculate_plan_costs total rate months)
  = Qfloor (total * rate).
Proof.
  unfold calculate_plan_costs. simpl.
  apply py_int_nonneg. apply rate_keeps_sign; lra.
Qed.

Lemma proposed_cost_le_total :
  inject_Z (proposed_cost (calculate_plan_costs total rate months)) <= total.
Proof.
  rewrite proposed_cost_floor.
  apply Qle_trans with (total * rate).
  - apply Qfloor_le.
  - apply rate_shrinks; assumption.
Qed.

Lemma reduction_amount_floor :
  reduction_amount (calculate_plan_costs total rate months)
  = Qfloor (total
            - inject_Z (proposed_cost (calculate_plan_costs total rate months))).
Proof.
  assert (H := proposed_cost_le_total).
  unfold calculate_plan_costs in *. simpl in *.
  apply py_int_nonneg. lra.
Qed.


End PlanCosts.






(** ** calculate_cost *)

Lemma monthly_loop_ok
    (ct : string) (bp : cell) (e cap b : Q) (pf : option Q)
    (usage : list Q) (acc : Charges) :
  base_charge_of ct bp cap pf = Ok b ->
  monthly_loop ct bp (Num e) cap pf usage acc
  = Ok {| base_charges := base_charges acc ++ map (fun _ => b) usage;
          energy_charges := energy_charges acc ++ map (fun u => e * u) usage;
          costs := costs acc ++ map (fun u => b + e * u) usage |}.
Proof.
  intro Hb. revert acc.
  induction usage as [| u rest IH]; intro acc; simpl.
  - rewrite !app_nil_r. destruct acc; reflexivity.
  - rewrite Hb. simpl. rewrite IH. simpl.
    rewrite <- !app_assoc. reflexivity.
Qed.

Lemma monthly_loop_length
    (ct : string) (bp ep : cell) (cap : Q) (pf : option Q)
    (usage : list Q) (acc acc' : Charges) :
  monthly_loop ct bp ep cap pf usage acc = Ok acc' ->
  List.length (base_charges acc') = (List.length (base_charges acc) + List.length usage)%nat
  /\ List.length (energy_charges acc')
     = (List.length (energy_charges acc) + List.length usage)%nat
  /\ List.length (costs acc') = (List.length (costs acc) + List.length usage)%nat.
Proof.
  revert acc.
  induction usage as [| u rest IH]; intros acc H; simpl in H.
  - inversion H; subst. simpl. lia.
  - destruct (base_charge_of ct bp cap pf) as [b | x]; simpl in H;
      [| discriminate].
    destruct (as_number ep) as [e | x]; simpl in H; [| discriminate].
    apply IH in H. simpl in H. rewrite !length_app in H. simpl in *. lia.
Qed.

Lemma monthly_loop_needs_power_factor
    (bp ep : cell) (cap u : Q) (rest : list Q) (acc : Charges) :
  monthly_loop High_Voltage bp ep cap None (u :: rest) acc
  = Raise ValueError_power_factor_required.
Proof. reflexivity. Qed.

Lemma monthly_loop_never_power_factor_error
    (ct : string) (bp ep : cell) (cap pf : Q) (usage : list Q)
    (acc : Charges) :
  monthly_loop ct bp ep cap (Some pf) usage acc
  <> Raise ValueError_power_factor_required.
Proof.
  revert acc. induction usage as [| u rest IH]; intro acc; simpl.
  - discriminate.
  - unfold base_charge_of.
    destruct (String.eqb ct High_Voltage); destruct bp; simpl;
      try discriminate; destruct ep; simpl; try discriminate; apply IH.
Qed.

Lemma select_plan_In (master : DataFrame) (row : PlanRow) :
  In row master ->
  exists plan rest,
    select_plan master (company_name row) (contract_type row) = plan :: rest
    /\ contract_type plan = contract_type row.
Proof.
  intro Hin.
  assert (Hm : matches (company_name row) (contract_type row) row = true).
  { unfold matches. rewrite !String.eqb_refl. reflexivity. }
  assert (Hf : In row (select_plan master (company_name row)
                         (contract_type row))).
  { apply filter_In. split; assumption. }
  destruct (select_plan master (company_name row) (contract_type row))
    as [| plan rest] eqn:E; [destruct Hf |].
  exists plan, rest. split; [reflexivity |].
  assert (Hp : In plan (select_plan master (company_name row)
                          (contract_type row))) by (rewrite E; left; reflexivity).
  apply filter_In in Hp. destruct Hp as [_ Hp]. unfold matches in Hp.
  apply andb_true_iff in Hp. destruct Hp as [_ Hp].
  apply String.eqb_eq in Hp. exact Hp.
Qed.

Lemma select_plan_nil (master : DataFrame) (c t : string) :
  select_plan master c t = []
  <-> forall row, In row master -> matches c t row = false.
Proof.
  unfold select_plan. split.
  - intros H row Hin. destruct (matches c t row) eqn:E; [| reflexivity].
    assert (Hf : In row (filter (matches c t) master))
      by (apply filter_In; split; assumption).
    rewrite H in Hf. destruct Hf.
  - intro H. induction master as [| x l IH]; [reflexivity |].
    simpl. rewrite (H x (or_introl eq_refl)).
    apply IH. intros row Hin. apply H. right. exact Hin.
Qed.

Lemma select_plan_first (l1 l2 : DataFrame) (row : PlanRow) (c t : string) :
  (forall r', In r' l1 -> matches c t r' = false) ->
  matches c t row = true ->
  select_plan (l1 ++ row :: l2) c t = row :: select_plan l2 c t.
Proof.
  intros Hl1 Hrow. unfold select_plan. rewrite filter_app.
  fold (select_plan l1 c t).
  rewrite (proj2 (select_plan_nil l1 c t) Hl1). simpl.
  rewrite Hrow. reflexivity.
Qed.

Lemma cost_of_plan_never_not_found
    (plan : PlanRow) (ct : string) (cap : Q) (usage : list Q)
    (pf : option Q) (c t : string) :
  cost_of_plan plan ct cap usage pf <> Raise (ValueError_plan_not_found c t).
Proof.
  unfold cost_of_plan.
  assert (Hloop : forall acc,
            monthly_loop ct (base_unit_price plan) (energy_unit_price plan)
              cap pf usage acc <> Raise (ValueError_plan_not_found c t)).
  { induction usage as [| u rest IH]; intro acc; simpl; [discriminate |].
    unfold base_charge_of.
    destruct (String.eqb ct High_Voltage); [destruct pf |];
      simpl; try discriminate;
      destruct (base_unit_price plan); simpl; try discriminate;
      destruct (energy_unit_price plan); simpl; try discriminate; apply IH. }
  specialize (Hloop no_charges).
  destruct (monthly_loop ct (base_unit_price plan) (energy_unit_price plan)
              cap pf usage no_charges) as [acc | x]; simpl.
  - destruct (incentive_running plan); simpl; try discriminate.
    destruct (incentive_shot plan); simpl; discriminate.
  - intro H. apply Hloop. inversion H. reflexivity.
Qed.

Lemma cost_of_plan_numeric
    (plan : PlanRow) (ct : string) (cap p e s r b : Q)
    (usage : list Q) (pf : option Q) :
  base_unit_price plan = Num p -> energy_unit_price plan = Num e ->
  incentive_shot plan = Num s -> incentive_running plan = Num r ->
  base_charge_of ct (Num p) cap pf = Ok b ->
  cost_of_plan plan ct cap usage pf
  = Ok {| monthly_costs := map (fun u => b + e * u) usage;
          annual_cost := py_sum (map (fun u => b + e * u) usage);
          monthly_base_charges := map (fun _ => b) usage;
          monthly_energy_charges := map (fun u => e * u) usage;
          res_incentive_shot := s;
          res_incentive_running := r * 12;
          net_annual_cost :=
            py_sum (map (fun u => b + e * u) usage) - s - r * 12 |}.
Proof.
  intros Hp He Hs Hr Hb. unfold cost_of_plan.
  rewrite Hp, He, Hs, Hr.
  rewrite (monthly_loop_ok ct (Num p) e cap b pf usage no_charges Hb).
  reflexivity.
Qed.



(** C5: for a catalog row of contract type High Voltage and a 12-month usage
    list, [calculate_cost] without a power factor raises the
    missing-power-factor error; with a power factor it does not raise it. *)
Theorem calculate_cost_power_factor_required
    (master : DataFrame) (row : PlanRow) (cap : Q) (usage : list Q) :
  In row master -> contract_type row = High_Voltage ->
  List.length usage = 12%nat ->
  calculate_cost master (company_name row) High_Voltage cap usage None
  = Raise ValueError_power_factor_required
  /\ forall pf,
       calculate_cost master (company_name row) High_Voltage cap usage
         (Some pf)
       <> Raise ValueError_power_factor_required.
Proof.
  intros Hin Hct Hlen.
  destruct (select_plan_In master row Hin) as (plan & rest & Hsel & _).
  rewrite Hct in Hsel. unfold calculate_cost. rewrite Hsel.
  destruct usage as [| u us]; [discriminate |]. split.
  - unfold cost_of_plan. rewrite monthly_loop_needs_power_factor. reflexivity.
  - intros pf H. unfold cost_of_plan in H.
    assert (Hn := monthly_loop_never_power_factor_error High_Voltage
                    (base_unit_price plan) (energy_unit_price plan) cap pf
                    (u :: us) no_charges).
    destruct (monthly_loop High_Voltage (base_unit_price plan)
                (energy_unit_price plan) cap (Some pf) (u :: us) no_charges)
      as [acc | x]; simpl in H.
    + destruct (incentive_running plan); simpl in H; try discriminate.
      destruct (incentive_shot plan); simpl in H; discriminate.
    + apply Hn. inversion H. reflexivity.
Qed.

Lemma calculate_cost_power_factor_required_witness :
  let row :=
    {| company_name := "A"; contract_type := High_Voltage;
       base_unit_price := Num 1000; energy_unit_price := Num 10;
       incentive_shot := Num 5; incentive_running := Num 1 |} in
  calculate_cost [row] "A" High_Voltage 100 (repeat 1 12) None
  = Raise ValueError_power_factor_required.
Proof.
  intro row.
  apply (calculate_cost_power_factor_required [row] row 100 (repeat 1 12)).
  - left; reflexivity.
  - reflexivity.
  - reflexivity.
Defined.

(** C6: [calculate_cost] raises the plan-not-found error exactly when no row
    of the master table matches (company name, contract type); when rows
    match, the first one in table order is used, later matching rows being
    ignored. *)
Theorem calculate_cost_plan_lookup
    (master : DataFrame) (company ct : string) (cap : Q) (usage : list Q)
    (pf : option Q) :
  ((forall row, In row master -> matches company ct row = false) ->
   calculate_cost master company ct cap usage pf
   = Raise (ValueError_plan_not_found company ct))
  /\ (forall c t,
        calculate_cost master company ct cap usage pf
        = Raise (ValueError_plan_not_found c t) ->
        forall row, In row master -> matches company ct row = false)
  /\ (forall l1 row l2,
        master = l1 ++ row :: l2 ->
        matches company ct row = true ->
        (forall r', In r' l1 -> matches company ct r' = false) ->
        calculate_cost master company ct cap usage pf
        = calculate_cost [row] company ct cap usage pf).
Proof.
  split; [| split].
  - intro Hnone. unfold calculate_cost.
    rewrite (proj2 (select_plan_nil master company ct) Hnone). reflexivity.
  - intros c t H. apply select_plan_nil. unfold calculate_cost in H.
    destruct (select_plan master company ct) as [| plan rest];
      [reflexivity |].
    exfalso. exact (cost_of_plan_never_not_found plan ct cap usage pf c t H).
  - intros l1 row l2 Hm Hrow Hl1. subst master. unfold calculate_cost.
    rewrite (select_plan_first l1 l2 row company ct Hl1 Hrow).
    change [row] with ([] ++ row :: []).
    rewrite (select_plan_first [] [] row company ct); [reflexivity | | exact Hrow].
    intros r' [].
Qed.

Lemma calculate_cost_plan_lookup_witness :
  let first :=
    {| company_name := "A"; contract_type := "Low Voltage";
       base_unit_price := Num 1000; energy_unit_price := Num 10;
       incentive_shot := Num 5; incentive_running := Num 1 |} in
  let second :=
    {| company_name := "A"; contract_type := "Low Voltage";
       base_unit_price := Num 7; energy_unit_price := Num 3;
       incentive_shot := Num 0; incentive_running := Num 0 |} in
  calculate_cost [first; second] "A" "Low Voltage" 10 [1; 2] None
  = calculate_cost [first] "A" "Low Voltage" 10 [1; 2] None
  /\ calculate_cost [first; second] "B" "Low Voltage" 10 [1; 2] None
     = Raise (ValueError_plan_not_found "B" "Low Voltage").
Proof.
  intros first second. split.
  - apply (proj2 (proj2 (calculate_cost_plan_lookup [first; second] "A"
                           "Low Voltage" 10 [1; 2] None)) [] first [second]).
    + reflexivity.
    + reflexivity.
    + intros r' [].
  - apply (proj1 (calculate_cost_plan_lookup [first; second] "B"
                    "Low Voltage" 10 [1; 2] None)).
    intros row [H | [H | []]]; subst row; reflexivity.
Defined.

(** C10: the three monthly lists returned by [calculate_cost] have the length
    of [monthly_usage]; the power-factor check belongs to the per-month loop,
    so a High Voltage plan with no power factor and an empty usage list
    returns normally, with annual cost 0 and net annual cost
    [-(incentive_shot + 12 * incentive_running)]. *)
Theorem calculate_cost_empty_usage :
  (forall (master : DataFrame) (company ct : string) (cap : Q)
          (usage : list Q) (pf : option Q) (res : CostResult),
     calculate_cost master company ct cap usage pf = Ok res ->
     List.length (monthly_costs res) = List.length usage
     /\ List.length (monthly_base_charges res) = List.length usage
     /\ List.length (monthly_energy_charges res) = List.length usage)
  /\ (forall (master : DataFrame) (company : string) (cap : Q)
             (plan : PlanRow) (others : list PlanRow) (s r : Q),
        select_plan master company High_Voltage = plan :: others ->
        incentive_shot plan = Num s -> incentive_running plan = Num r ->
        exists res,
          calculate_cost master company High_Voltage cap [] None = Ok res
          /\ monthly_costs res = []
          /\ annual_cost res = 0
          /\ net_annual_cost res == - (s + 12 * r)).
Proof.
  split.
  - intros master company ct cap usage pf res H.
    unfold calculate_cost in H.
    destruct (select_plan master company ct) as [| plan rest];
      [discriminate |].
    unfold cost_of_plan in H.
    destruct (monthly_loop ct (base_unit_price plan) (energy_unit_price plan)
                cap pf usage no_charges) as [acc | x] eqn:E;
      simpl in H; [| discriminate].
    apply monthly_loop_length in E. simpl in E.
    destruct (as_number (incentive_running plan)); simpl in H;
      [| discriminate].
    destruct (as_number (incentive_shot plan)); simpl in H; [| discriminate].
    inversion H; subst; simpl. tauto.
  - intros master company cap plan others s r Hsel Hs Hr.
    unfold calculate_cost. rewrite Hsel. unfold cost_of_plan. simpl.
    rewrite Hs, Hr. simpl. eexists. split; [reflexivity |]. simpl.
    repeat split. unfold py_sum. simpl. ring.
Qed.

Lemma calculate_cost_empty_usage_witness :
  let row :=
    {| company_name := "A"; contract_type := High_Voltage;
       base_unit_price := Num 1000; energy_unit_price := Num 10;
       incentive_shot := Num 5; incentive_running := Num 1 |} in
  exists res,
    calculate_cost [row] "A" High_Voltage 100 [] None = Ok res
    /\ annual_cost res = 0
    /\ net_annual_cost res == - (5 + 12 * 1).
Proof.
  intro row.
  destruct (proj2 calculate_cost_empty_usage [row] "A"%string 100 row [] 5 1
              eq_refl eq_refl eq_refl) as (res & H1 & _ & H2 & H3).
  exists res. repeat split; assumption.
Defined.

(** ** calculate_item_breakdown *)

Lemma group3_step (a b c d : ascii) (rest : list ascii) :
  group3 (a :: b :: c :: d :: rest)
  = a :: b :: c :: ","%char :: group3 (d :: rest).
Proof. reflexivity. Qed.

Lemma group3_strip (l : list ascii) :
  filter (fun c => negb (Ascii.eqb c ","%char)) (group3 l)
  = filter (fun c => negb (Ascii.eqb c ","%char)) l.
Proof.
  assert (H : forall n l, (List.length l <= n)%nat ->
            filter (fun c => negb (Ascii.eqb c ","%char)) (group3 l)
            = filter (fun c => negb (Ascii.eqb c ","%char)) l).
  { clear l. induction n as [| n IH]; intros l Hn.
    - destruct l; [reflexivity | simpl in Hn; lia].
    - destruct l as [| a [| b [| c [| d rest]]]]; try reflexivity.
      rewrite group3_step.
      change (a :: b :: c :: ","%char :: group3 (d :: rest))
        with ([a; b; c; ","%char] ++ group3 (d :: rest)).
      change (a :: b :: c :: d :: rest) with ([a; b; c] ++ d :: rest).
      rewrite !filter_app.
      rewrite (IH (d :: rest)) by (simpl in *; lia).
      reflexivity. }
  apply (H (List.length l)). lia.
Qed.

Lemma digits_of_uint (d : Decimal.uint) :
  forallb is_digit (list_ascii_of_string (NilZero.string_of_uint d)) = true.
Proof.
  assert (H : forall d, forallb is_digit
                (list_ascii_of_string (NilEmpty.string_of_uint d)) = true).
  { clear d. induction d; simpl; try rewrite IHd; reflexivity. }
  destruct d; try apply (H (Decimal.D0 d)) || reflexivity;
    simpl; rewrite H; reflexivity.
Qed.

Lemma strip_digits (l : list ascii) :
  forallb is_digit l = true ->
  filter (fun c => negb (Ascii.eqb c ","%char)) l = l.
Proof.
  induction l as [| c l IH]; [reflexivity |]. simpl. intro H.
  apply andb_true_iff in H. destruct H as [Hc Hl].
  destruct (Ascii.eqb c ","%char) eqn:E.
  - apply Ascii.eqb_eq in E. subst c. discriminate.
  - simpl. rewrite (IH Hl). reflexivity.
Qed.

Lemma group_thousands_strip (digits : string) :
  forallb is_digit (list_ascii_of_string digits) = true ->
  filter (fun c => negb (Ascii.eqb c ","%char))
    (list_ascii_of_string (group_thousands digits))
  = list_ascii_of_string digits.
Proof.
  intro H. unfold group_thousands.
  rewrite list_ascii_of_string_of_list_ascii.
  rewrite filter_rev, group3_strip, <- filter_rev, rev_involutive.
  apply strip_digits. exact H.
Qed.

Lemma N_to_uint_digits_inj (m n : N) :
  list_ascii_of_string (NilZero.string_of_uint (N.to_uint m))
  = list_ascii_of_string (NilZero.string_of_uint (N.to_uint n)) ->
  m = n.
Proof.
  intro H.
  apply (f_equal string_of_list_ascii) in H.
  rewrite !string_of_list_ascii_of_string in H.
  assert (Hnn : forall k, N.to_uint k <> Decimal.Nil).
  { intros [| p]; simpl; [discriminate |].
    apply DecimalPos.Unsigned.to_uint_nonnil. }
  apply (f_equal NilZero.uint_of_string) in H.
  rewrite !NilZero.usu in H by apply Hnn.
  injection H as H. apply DecimalN.Unsigned.to_uint_inj. exact H.
Qed.

Lemma format_commas_strip (n : Z) :
  filter (fun c => negb (Ascii.eqb c ","%char))
    (list_ascii_of_string (format_commas n))
  = if (n <? 0)%Z
    then "-"%char
         :: list_ascii_of_string
              (NilZero.string_of_uint (N.to_uint (Z.abs_N n)))
    else list_ascii_of_string
           (NilZero.string_of_uint (N.to_uint (Z.abs_N n))).
Proof.
  unfold format_commas. destruct (n <? 0)%Z; simpl;
    rewrite group_thousands_strip by apply digits_of_uint; reflexivity.
Qed.

Lemma format_commas_inj (a b : Z) :
  format_commas a = format_commas b -> a = b.
Proof.
  intro H.
  apply (f_equal (fun s => filter (fun c => negb (Ascii.eqb c ","%char))
                             (list_ascii_of_string s))) in H.
  rewrite !format_commas_strip in H.
  assert (Hd := digits_of_uint (N.to_uint (Z.abs_N a))).
  assert (Hd' := digits_of_uint (N.to_uint (Z.abs_N b))).
  destruct (a <? 0)%Z eqn:Ea, (b <? 0)%Z eqn:Eb.
  - injection H as H. apply N_to_uint_digits_inj in H. lia.
  - rewrite <- H in Hd'. discriminate.
  - rewrite H in Hd. discriminate.
  - apply N_to_uint_digits_inj in H. lia.
Qed.




Lemma calculate_item_breakdown_map
    (items : list BillingItem) (base total rate : Q) :
  calculate_item_breakdown items base total rate
  = map (breakdown_row base total rate) items.
Proof.
  induction items as [| item rest IH]; simpl; [| rewrite IH]; reflexivity.
Qed.







(** ** The sort of [get_comparison] *)

Lemma insert_by_key_perm {A : Type} (key : A -> Q) (x : A) (l : list A) :
  Permutation (insert_by_key key x l) (x :: l).
Proof.
  induction l as [| y l IH]; simpl; [reflexivity |].
  destruct (Qltb (key y) (key x)); [| reflexivity].
  rewrite IH. apply perm_swap.
Qed.

Lemma sort_by_key_perm {A : Type} (key : A -> Q) (l : list A) :
  Permutation (sort_by_key key l) l.
Proof.
  induction l as [| x l IH]; simpl; [reflexivity |].
  rewrite insert_by_key_perm. constructor. exact IH.
Qed.

Section SortByKey.

Context {A : Type}.
Variable key : A -> Q.






End SortByKey.



(** ** get_comparison *)

Section Comparison.

Variable master : DataFrame.
Variable ct : string.
Variable cap : Q.
Variable usage : list Q.
Variable pf : option Q.




End Comparison.


Lemma comparison_loop_app
    (master : DataFrame) (rows1 rows2 : list PlanRow) (ct : string) (cap : Q)
    (usage : list Q) (pf : option Q) :
  comparison_loop master (rows1 ++ rows2) ct cap usage pf
  = comparison_loop master rows1 ct cap usage pf
    ++ comparison_loop master rows2 ct cap usage pf.
Proof.
  induction rows1 as [| plan rest IH]; simpl; [reflexivity |].
  rewrite IH, app_assoc. reflexivity.
Qed.

Lemma comparison_loop_ext
    (master1 master2 : DataFrame) (rows : list PlanRow) (ct : string)
    (cap : Q) (usage : list Q) (pf : option Q) :
  (forall plan, In plan rows ->
     calculate_cost master1 (company_name plan) ct cap usage pf
     = calculate_cost master2 (company_name plan) ct cap usage pf) ->
  comparison_loop master1 rows ct cap usage pf
  = comparison_loop master2 rows ct cap usage pf.
Proof.
  induction rows as [| plan rest IH]; intro H; simpl; [reflexivity |].
  unfold comparison_step. rewrite (H plan (or_introl eq_refl)).
  rewrite IH; [reflexivity |].
  intros p Hp. apply H. right. exact Hp.
Qed.

Lemma calculate_cost_without_row
    (l1 l2 : DataFrame) (row : PlanRow) (c ct : string) (cap : Q)
    (usage : list Q) (pf : option Q) :
  matches c ct row = false \/ select_plan l1 c ct <> [] ->
  calculate_cost (l1 ++ row :: l2) c ct cap usage pf
  = calculate_cost (l1 ++ l2) c ct cap usage pf.
Proof.
  intro H. unfold calculate_cost, select_plan. rewrite !filter_app. simpl.
  destruct H as [H | H].
  - rewrite H. reflexivity.
  - unfold select_plan in H.
    destruct (filter (matches c ct) l1) as [| p rest]; [contradiction |].
    reflexivity.
Qed.

Lemma matches_swap (a b : PlanRow) (ct : string) :
  contract_type a = ct -> contract_type b = ct ->
  matches (company_name a) ct b = true ->
  matches (company_name b) ct a = true.
Proof.
  unfold matches. intros Ha Hb H.
  apply andb_true_iff in H. destruct H as [H _].
  apply String.eqb_eq in H. rewrite H, Ha, !String.eqb_refl. reflexivity.
Qed.

(** C4 (as amended): [get_comparison] always returns; a row of the requested
    contract type whose calculation raises is skipped, and, provided no later
    row of the master table has the same (company name, contract type) as
    the failing row, the result is the one obtained from the table without
    that row: same entries, same order. *)
Theorem get_comparison_skips_failing_row
    (l1 l2 : DataFrame) (row : PlanRow) (ct : string) (cap : Q)
    (usage : list Q) (pf : option Q) (e : exn) :
  contract_type row = ct ->
  calculate_cost (l1 ++ row :: l2) (company_name row) ct cap usage pf
  = Raise e ->
  (forall later, In later l2 -> matches (company_name row) ct later = false) ->
  get_comparison (l1 ++ row :: l2) ct cap usage pf
  = get_comparison (l1 ++ l2) ct cap usage pf.
Proof.
  intros Hct Hfail Hlater. unfold get_comparison. f_equal.
  unfold available_plans_of. rewrite !filter_app. simpl.
  rewrite (proj2 (String.eqb_eq _ _) Hct).
  change (row :: filter (fun r => String.eqb (contract_type r) ct) l2)
    with ([row] ++ filter (fun r => String.eqb (contract_type r) ct) l2).
  rewrite !comparison_loop_app.
  assert (Hrow : comparison_loop (l1 ++ row :: l2) [row] ct cap usage pf = []).
  { simpl. unfold comparison_step. rewrite Hfail. reflexivity. }
  rewrite Hrow. simpl.
  f_equal; apply comparison_loop_ext; intros plan Hin;
    apply filter_In in Hin; destruct Hin as [Hin Hp];
    apply String.eqb_eq in Hp; apply calculate_cost_without_row.
  - right. intro Hnil.
    assert (Hm : matches (company_name plan) ct plan = true).
    { unfold matches. rewrite Hp, !String.eqb_refl. reflexivity. }
    rewrite (proj1 (select_plan_nil l1 (company_name plan) ct) Hnil plan Hin)
      in Hm. discriminate.
  - left. destruct (matches (company_name plan) ct row) eqn:E;
      [| reflexivity].
    specialize (Hlater plan Hin).
    rewrite (matches_swap plan row ct Hp Hct E) in Hlater. discriminate.
Qed.

Lemma get_comparison_skips_failing_row_witness :
  let good1 :=
    {| company_name := "A"; contract_type := "Low Voltage";
       base_unit_price := Num 1000; energy_unit_price := Num 10;
       incentive_shot := Num 5; incentive_running := Num 1 |} in
  let bad :=
    {| company_name := "B"; contract_type := "Low Voltage";
       base_unit_price := Text "n/a"; energy_unit_price := Num 10;
       incentive_shot := Num 5; incentive_running := Num 1 |} in
  let good2 :=
    {| company_name := "C"; contract_type := "Low Voltage";
       base_unit_price := Num 900; energy_unit_price := Num 11;
       incentive_shot := Num 0; incentive_running := Num 0 |} in
  get_comparison [good1; bad; good2] "Low Voltage" 10 [100; 200] None
  = get_comparison [good1; good2] "Low Voltage" 10 [100; 200] None.
Proof.
  intros good1 bad good2.
  apply (get_comparison_skips_failing_row [good1] [good2] bad "Low Voltage"
           10 [100; 200] None TypeError).
  - reflexivity.
  - reflexivity.
  - intros later [H | []]. subst later. reflexivity.
Defined.

(** C4, the claim as stated fails when the failing row hides a later row of
    the same company: both rows are looked up by company name and reach the
    first one, so neither yields an entry, while the table without the
    failing row yields one. *)
Lemma get_comparison_failing_row_hides_duplicate :
  let bad :=
    {| company_name := "A"; contract_type := "Low Voltage";
       base_unit_price := Text "n/a"; energy_unit_price := Num 10;
       incentive_shot := Num 5; incentive_running := Num 1 |} in
  let good :=
    {| company_name := "A"; contract_type := "Low Voltage";
       base_unit_price := Num 1000; energy_unit_price := Num 10;
       incentive_shot := Num 5; incentive_running := Num 1 |} in
  calculate_cost [bad; good] (company_name bad) "Low Voltage" 10 [100; 200]
    None
  = Raise TypeError
  /\ List.length
       (get_comparison [bad; good] "Low Voltage" 10 [100; 200] None)
     = 0%nat
  /\ List.length (get_comparison [good] "Low Voltage" 10 [100; 200] None)
     = 1%nat.
Proof.
  vm_compute. repeat split.
Qed.

(** Two plans of equal net annual cost come out in table order, after a
    cheaper plan that stands later in the table. *)
Example get_comparison_tie_keeps_table_order :
  let row (c : string) (p : Q) :=
    {| company_name := c; contract_type := "Low Voltage";
       base_unit_price := Num p; energy_unit_price := Num 10;
       incentive_shot := Num 0; incentive_running := Num 0 |} in
  map cmp_company_name
    (get_comparison
       [row "Z"%string 100; row "A"%string 100; row "M"%string 90]
       "Low Voltage" 10 [1; 2] None)
  = ["M"; "Z"; "A"]%string.
Proof. vm_compute. reflexivity. Qed.

(** * Further properties of the calculation functions *)

(** ** calculate_cost *)



Lemma numeric_plan_result
    (master : DataFrame) (company ct : string) (cap : Q) (usage : list Q)
    (pf : option Q) (plan : PlanRow) (others : list PlanRow)
    (p e s r b : Q) :
  select_plan master company ct = plan :: others ->
  base_unit_price plan = Num p -> energy_unit_price plan = Num e ->
  incentive_shot plan = Num s -> incentive_running plan = Num r ->
  base_charge_of ct (Num p) cap pf = Ok b ->
  calculate_cost master company ct cap usage pf
  = Ok {| monthly_costs := map (fun u => b + e * u) usage;
          annual_cost := py_sum (map (fun u => b + e * u) usage);
          monthly_base_charges := map (fun _ => b) usage;
          monthly_energy_charges := map (fun u => e * u) usage;
          res_incentive_shot := s;
          res_incentive_running := r * 12;
          net_annual_cost :=
            py_sum (map (fun u => b + e * u) usage) - s - r * 12 |}.
Proof.
  intros Hsel Hp He Hs Hr Hb. unfold calculate_cost. rewrite Hsel.
  apply (cost_of_plan_numeric plan ct cap p e s r b usage pf);
    assumption.
Qed.





(** ** get_comparison *)

Lemma comparison_loop_In
    (master : DataFrame) (rows : list PlanRow) (ct : string) (cap : Q)
    (usage : list Q) (pf : option Q) (entry : ComparisonEntry) :
  In entry (comparison_loop master rows ct cap usage pf) ->
  exists plan r,
    In plan rows
    /\ calculate_cost master (company_name plan) ct cap usage pf = Ok r
    /\ entry = entry_of plan r.
Proof.
  induction rows as [| plan rest IH]; simpl; [intros [] |].
  rewrite in_app_iff. intros [H | H].
  - unfold comparison_step in H.
    destruct (calculate_cost master (company_name plan) ct cap usage pf)
      as [r | x] eqn:E; [| destruct H].
    destruct H as [H | []]. exists plan, r. auto.
  - destruct (IH H) as (q & r & Hq & Hr). exists q, r.
    split; [right; exact Hq | exact Hr].
Qed.

Lemma available_plans_In (master : DataFrame) (ct : string) (row : PlanRow) :
  In row (available_plans_of master ct)
  <-> In row master /\ contract_type row = ct.
Proof.
  unfold available_plans_of. rewrite filter_In, String.eqb_eq. reflexivity.
Qed.

Lemma sort_by_key_nil_iff {A : Type} (key : A -> Q) (l : list A) :
  sort_by_key key l = [] <-> l = [].
Proof.
  split; intro H; [| subst; reflexivity].
  assert (Hp := sort_by_key_perm key l). rewrite H in Hp.
  apply Permutation_nil. exact Hp.
Qed.

(** X3: for the contract type High Voltage, without a power factor and with
    at least one month of usage, [get_comparison] returns the empty list:
    every plan is skipped, whatever the master table holds. *)
Theorem get_comparison_high_voltage_without_power_factor
    (master : DataFrame) (cap : Q) (usage : list Q) :
  usage <> [] ->
  get_comparison master High_Voltage cap usage None = [].
Proof.
  intro Hu. unfold get_comparison. apply sort_by_key_nil_iff.
  destruct (comparison_loop master (available_plans_of master High_Voltage)
              High_Voltage cap usage None) as [| entry rest] eqn:E;
    [reflexivity |].
  exfalso.
  assert (Hin : In entry (comparison_loop master
                            (available_plans_of master High_Voltage)
                            High_Voltage cap usage None))
    by (rewrite E; left; reflexivity).
  apply comparison_loop_In in Hin. destruct Hin as (plan & r & Hp & Hc & _).
  apply available_plans_In in Hp. destruct Hp as [Hin Hct].
  destruct (select_plan_In master plan Hin) as (q & rest' & Hsel & _).
  rewrite Hct in Hsel. unfold calculate_cost in Hc. rewrite Hsel in Hc.
  destruct usage as [| u us]; [contradiction |].
  unfold cost_of_plan in Hc. rewrite monthly_loop_needs_power_factor in Hc.
  discriminate.
Qed.

Lemma get_comparison_high_voltage_without_power_factor_witness :
  get_comparison
    [ {| company_name := "A"; contract_type := High_Voltage;
         base_unit_price := Num 1000; energy_unit_price := Num 10;
         incentive_shot := Num 5; incentive_running := Num 1 |} ]
    High_Voltage 100 [1; 2] None
  = [].
Proof.
  apply get_comparison_high_voltage_without_power_factor. discriminate.
Defined.

(** X4: entries of [get_comparison] with the same company name are equal:
    rows that repeat a company name (for one contract type) all show the
    figures of the first of them. *)
Theorem get_comparison_same_company_same_entry
    (master : DataFrame) (ct : string) (cap : Q) (usage : list Q)
    (pf : option Q) (e1 e2 : ComparisonEntry) :
  In e1 (get_comparison master ct cap usage pf) ->
  In e2 (get_comparison master ct cap usage pf) ->
  cmp_company_name e1 = cmp_company_name e2 ->
  e1 = e2.
Proof.
  unfold get_comparison. intros H1 H2 Hname.
  apply (Permutation_in _ (sort_by_key_perm _ _)) in H1.
  apply (Permutation_in _ (sort_by_key_perm _ _)) in H2.
  apply comparison_loop_In in H1. apply comparison_loop_In in H2.
  destruct H1 as (p1 & r1 & _ & Hc1 & He1).
  destruct H2 as (p2 & r2 & _ & Hc2 & He2).
  subst e1 e2. simpl in Hname. rewrite Hname in Hc1.
  rewrite Hc1 in Hc2. injection Hc2 as Hr. subst r2.
  unfold entry_of. rewrite Hname. reflexivity.
Qed.

Lemma get_comparison_same_company_same_entry_witness :
  let first :=
    {| company_name := "A"; contract_type := "Low Voltage";
       base_unit_price := Num 1000; energy_unit_price := Num 10;
       incentive_shot := Num 5; incentive_running := Num 1 |} in
  let second :=
    {| company_name := "A"; contract_type := "Low Voltage";
       base_unit_price := Num 7; energy_unit_price := Num 3;
       incentive_shot := Num 0; incentive_running := Num 0 |} in
  nth 0 (get_comparison [first; second] "Low Voltage" 10 [1; 2] None)
    (entry_of first (Build_CostResult [] 0 [] [] 0 0 0))
  = nth 1 (get_comparison [first; second] "Low Voltage" 10 [1; 2] None)
      (entry_of first (Build_CostResult [] 0 [] [] 0 0 0)).
Proof.
  intros first second.
  apply (get_comparison_same_company_same_entry [first; second]
           "Low Voltage" 10 [1; 2] None).
  - left. reflexivity.
  - right. left. reflexivity.
  - reflexivity.
Defined.

Lemma comparison_loop_names
    (master : DataFrame) (rows : list PlanRow) (ct : string) (cap : Q)
    (usage : list Q) (pf : option Q) :
  (forall plan, In plan rows ->
     exists r, calculate_cost master (company_name plan) ct cap usage pf
               = Ok r) ->
  map cmp_company_name (comparison_loop master rows ct cap usage pf)
  = map company_name rows.
Proof.
  induction rows as [| plan rest IH]; intro H; simpl; [reflexivity |].
  destruct (H plan (or_introl eq_refl)) as [r Hr].
  unfold comparison_step. rewrite Hr. simpl. f_equal.
  apply IH. intros q Hq. apply H. right. exact Hq.
Qed.

(** X5: when every row of the requested contract type has numeric price and
    incentive cells, and a power factor is given if that type is High
    Voltage, [get_comparison] returns one entry per row of that type: the
    company names of the result are those of these rows, rearranged. *)
Theorem get_comparison_complete
    (master : DataFrame) (ct : string) (cap : Q) (usage : list Q)
    (pf : option Q) :
  (forall row, In row master -> contract_type row = ct ->
     exists p e s r,
       base_unit_price row = Num p /\ energy_unit_price row = Num e
       /\ incentive_shot row = Num s /\ incentive_running row = Num r) ->
  (ct = High_Voltage -> pf <> None) ->
  Permutation
    (map cmp_company_name (get_comparison master ct cap usage pf))
    (map company_name (available_plans_of master ct))
  /\ List.length (get_comparison master ct cap usage pf)
     = List.length (available_plans_of master ct).
Proof.
  intros Hnum Hpf.
  assert (Hnames : map cmp_company_name
                     (comparison_loop master (available_plans_of master ct)
                        ct cap usage pf)
                   = map company_name (available_plans_of master ct)).
  { apply comparison_loop_names. intros plan Hin.
    apply available_plans_In in Hin. destruct Hin as [Hin Hct].
    destruct (select_plan_In master plan Hin) as (q & rest & Hsel & Hq).
    rewrite Hct in Hsel, Hq.
    assert (Hqin : In q master).
    { assert (Hf : In q (select_plan master (company_name plan) ct))
        by (rewrite Hsel; left; reflexivity).
      apply filter_In in Hf. exact (proj1 Hf). }
    destruct (Hnum q Hqin Hq) as (p & e & s & r & Hp & He & Hs & Hr).
    assert (Hb : exists b, base_charge_of ct (Num p) cap pf = Ok b).
    { unfold base_charge_of.
      destruct (String.eqb ct High_Voltage) eqn:E; [| eexists; reflexivity].
      apply String.eqb_eq in E. specialize (Hpf E).
      destruct pf as [x |]; [eexists; reflexivity | contradiction]. }
    destruct Hb as [b Hb]. eexists.
    apply (numeric_plan_result master (company_name plan) ct cap usage pf
             q rest p e s r b Hsel Hp He Hs Hr Hb). }
  assert (Hperm : Permutation
                    (map cmp_company_name (get_comparison master ct cap usage pf))
                    (map company_name (available_plans_of master ct))).
  { rewrite <- Hnames. apply Permutation_map. unfold get_comparison.
    apply sort_by_key_perm. }
  split; [exact Hperm |].
  apply Permutation_length in Hperm. rewrite !length_map in Hperm.
  exact Hperm.
Qed.

Lemma get_comparison_complete_witness :
  let row (c : string) (t : string) (p : Q) :=
    {| company_name := c; contract_type := t;
       base_unit_price := Num p; energy_unit_price := Num 10;
       incentive_shot := Num 0; incentive_running := Num 0 |} in
  let master :=
    [row "Z"%string "Low Voltage"%string 100;
     row "H"%string High_Voltage 50;
     row "A"%string "Low Voltage"%string 90] in
  List.length (get_comparison master "Low Voltage" 10 [1; 2] None)
  = List.length (available_plans_of master "Low Voltage").
Proof.
  intros row master.
  apply (get_comparison_complete master "Low Voltage" 10 [1; 2] None).
  - intros r [H | [H | [H | []]]] _; subst r;
      do 4 eexists; repeat split; reflexivity.
  - discriminate.
Defined.

Lemma select_plan_available (master : DataFrame) (c ct : string) :
  select_plan (available_plans_of master ct) c ct = select_plan master c ct.
Proof.
  unfold select_plan, available_plans_of.
  induction master as [| row rest IH]; [reflexivity |]. simpl.
  unfold matches at 2.
  destruct (String.eqb (contract_type row) ct) eqn:E; simpl.
  - unfold matches at 1. rewrite E, IH. reflexivity.
  - rewrite andb_false_r. exact IH.
Qed.

Lemma available_plans_idempotent (master : DataFrame) (ct : string) :
  available_plans_of (available_plans_of master ct) ct
  = available_plans_of master ct.
Proof.
  unfold available_plans_of.
  induction master as [| row rest IH]; [reflexivity |]. simpl.
  destruct (String.eqb (contract_type row) ct) eqn:E; simpl;
    [rewrite E, IH; reflexivity | exact IH].
Qed.

(** X6: rows of other contract types play no part: [get_comparison] on the
    master table gives the result it gives on the table reduced to the rows
    of the requested contract type. *)
Theorem get_comparison_ignores_other_contract_types
    (master : DataFrame) (ct : string) (cap : Q) (usage : list Q)
    (pf : option Q) :
  get_comparison (available_plans_of master ct) ct cap usage pf
  = get_comparison master ct cap usage pf.
Proof.
  unfold get_comparison. rewrite available_plans_idempotent. f_equal.
  apply comparison_loop_ext. intros plan _. unfold calculate_cost.
  rewrite select_plan_available. reflexivity.
Qed.





(** ** calculate_plan_costs *)





(** X9: for [total >= 0], a larger rate in (0,1] gives a proposed cost at
    least as large and a reduction amount at most as large. *)
Theorem calculate_plan_costs_monotone_in_rate
    (total rate1 rate2 : Q) (months : Z) :
  0 <= total -> 0 < rate1 -> rate1 <= rate2 -> rate2 <= 1 ->
  (proposed_cost (calculate_plan_costs total rate1 months)
   <= proposed_cost (calculate_plan_costs total rate2 months))%Z
  /\ (reduction_amount (calculate_plan_costs total rate2 months)
      <= reduction_amount (calculate_plan_costs total rate1 months))%Z.
Proof.
  intros Ht H1 H12 H2.
  assert (H2' : 0 < rate2) by lra. assert (H1' : rate1 <= 1) by lra.
  assert (Hp : (proposed_cost (calculate_plan_costs total rate1 months)
                <= proposed_cost (calculate_plan_costs total rate2 months))%Z).
  { rewrite (proposed_cost_floor total rate1 months Ht H1),
      (proposed_cost_floor total rate2 months Ht H2').
    apply Qfloor_resp_le. nra. }
  split; [exact Hp |].
  rewrite (reduction_amount_floor total rate1 months Ht H1 H1'),
    (reduction_amount_floor total rate2 months Ht H2' H2).
  apply Qfloor_resp_le. rewrite Zle_Qle in Hp. lra.
Qed.

Lemma calculate_plan_costs_monotone_in_rate_witness :
  (proposed_cost (calculate_plan_costs 1000 (3 # 4) 2)
   <= proposed_cost (calculate_plan_costs 1000 (4 # 5) 2))%Z
  /\ (reduction_amount (calculate_plan_costs 1000 (4 # 5) 2)
      <= reduction_amount (calculate_plan_costs 1000 (3 # 4) 2))%Z.
Proof.
  apply (calculate_plan_costs_monotone_in_rate 1000 (3 # 4) (4 # 5) 2).
  - unfold Qle; simpl; lia.
  - unfold Qlt; simpl; lia.
  - unfold Qle; simpl; lia.
  - unfold Qle; simpl; lia.
Defined.





(** ** calculate_item_breakdown *)

Lemma py_int_zero_times (rate : Q) : py_int (inject_Z 0 * rate) = 0%Z.
Proof. unfold py_int. simpl. reflexivity. Qed.

(** X12: when [base_monthly_cost] is not positive nothing is divided: every
    row shows its item name and the yen text of 0 in the three amount
    columns, whatever the amounts, the total and the rate are. *)
Theorem calculate_item_breakdown_without_base
    (items : list BillingItem) (base total rate : Q) :
  base <= 0 ->
  calculate_item_breakdown items base total rate
  = map (fun item =>
           {| col_item := name item; col_current := yen 0;
              col_proposed := yen 0; col_difference := yen 0 |})
      items.
Proof.
  intro Hb. rewrite calculate_item_breakdown_map. apply map_ext.
  intro item. unfold breakdown_row, item_total_current, item_total_new.
  rewrite (proj2 (Qltb_false 0 base) Hb). rewrite py_int_zero_times.
  reflexivity.
Qed.

Lemma calculate_item_breakdown_without_base_witness :
  calculate_item_breakdown [ {| name := "base"; val := 5000 |} ] 0 34000
    (3 # 4)
  = [ {| col_item := "base"; col_current := yen 0;
         col_proposed := yen 0; col_difference := yen 0 |} ].
Proof.
  apply (calculate_item_breakdown_without_base
           [ {| name := "base"; val := 5000 |} ] 0 34000 (3 # 4)).
  unfold Qle; simpl; lia.
Defined.

Lemma item_total_current_nonneg (item : BillingItem) (base total : Q) :
  0 <= val item -> 0 <= total ->
  (0 <= item_total_current item base total)%Z.
Proof.
  intros Hv Ht. unfold item_total_current.
  destruct (Qltb 0 base) eqn:E; [| lia].
  apply Qltb_true in E. apply py_int_ge_0.
  apply Qmult_le_0_compat; [| exact Ht].
  apply Qle_shift_div_l; [exact E | lra].
Qed.

Lemma item_total_new_bounds (current : Z) (rate : Q) :
  (0 <= current)%Z -> 0 <= rate -> rate <= 1 ->
  (0 <= item_total_new current rate <= current)%Z
  /\ inject_Z (item_total_new current rate) <= inject_Z current * rate.
Proof.
  intros Hc Hr0 Hr1. unfold item_total_new.
  rewrite Zle_Qle in Hc. change (inject_Z 0) with 0 in Hc.
  assert (Hx : 0 <= inject_Z current * rate)
    by (apply rate_keeps_sign; assumption).
  rewrite py_int_nonneg by exact Hx. split; [split |].
  - change 0%Z with (Qfloor 0). apply Qfloor_resp_le. exact Hx.
  - rewrite <- (Qfloor_Z current) at 2. apply Qfloor_resp_le.
    apply rate_shrinks; assumption.
  - apply Qfloor_le.
Qed.

(** X13: with non-negative item amounts, [total >= 0] and a rate between 0
    and 1, every row shows a proposed amount between 0 and the current
    amount, so the difference shown is never negative. *)
Theorem calculate_item_breakdown_row_bounds
    (items : list BillingItem) (base total rate : Q)
    (i : nat) (item : BillingItem) :
  0 <= total -> 0 <= rate -> rate <= 1 ->
  nth_error items i = Some item -> 0 <= val item ->
  exists current proposed : Z,
    nth_error (calculate_item_breakdown items base total rate) i
    = Some {| col_item := name item; col_current := yen current;
              col_proposed := yen proposed;
              col_difference := yen (current - proposed) |}
    /\ (0 <= proposed <= current)%Z
    /\ (0 <= current - proposed)%Z.
Proof.
  intros Ht Hr0 Hr1 Hi Hv.
  exists (item_total_current item base total),
         (item_total_new (item_total_current item base total) rate).
  split.
  - rewrite calculate_item_breakdown_map, nth_error_map, Hi. reflexivity.
  - assert (Hc := item_total_current_nonneg item base total Hv Ht).
    destruct (item_total_new_bounds _ rate Hc Hr0 Hr1) as [Hb _]. lia.
Qed.

Lemma calculate_item_breakdown_row_bounds_witness :
  let items := [ {| name := "base"; val := 5000 |};
                 {| name := "energy"; val := 12000 |} ] in
  exists current proposed : Z,
    nth_error (calculate_item_breakdown items 17000 34000 (3 # 4)) 1
    = Some {| col_item := "energy"; col_current := yen current;
              col_proposed := yen proposed;
              col_difference := yen (current - proposed) |}
    /\ (0 <= proposed <= current)%Z.
Proof.
  intro items.
  destruct (calculate_item_breakdown_row_bounds items 17000 34000 (3 # 4)
              1 {| name := "energy"; val := 12000 |})
    as (current & proposed & H1 & H2 & _).
  - unfold Qle; simpl; lia.
  - unfold Qle; simpl; lia.
  - unfold Qle; simpl; lia.
  - reflexivity.
  - unfold Qle; simpl; lia.
  - exists current, proposed. split; assumption.
Defined.




(** X15: the yen text of an amount, with its thousands separators,
    determines the amount: different integers are never shown alike. *)
Theorem yen_text_determines_amount (a b : Z) : yen a = yen b -> a = b.
Proof.
  unfold yen. intro H. apply format_commas_inj.
  unfold yen_sign in H. simpl in H. congruence.
Qed.

Lemma yen_text_determines_amount_witness :
  (Qfloor (2469134 # 2) = 1234567)%Z.
Proof.
  apply (yen_text_determines_amount (Qfloor (2469134 # 2)) 1234567).
  reflexivity.
Defined.

(** * The master-table loader *)

Lemma missing_columns_In (df : CsvFrame) (col : string) :
  In col (missing_columns_of df)
  <-> In col required_columns /\ ~ In col (csv_columns df).
Proof.
  unfold missing_columns_of. rewrite filter_In, negb_true_iff.
  split; intros [Hr Hc]; (split; [exact Hr |]).
  - intro Hin. assert (He : existsb (String.eqb col) (csv_columns df) = true).
    { apply existsb_exists. exists col. split; [exact Hin |].
      apply String.eqb_refl. }
    congruence.
  - destruct (existsb (String.eqb col) (csv_columns df)) eqn:E;
      [| reflexivity].
    apply existsb_exists in E. destruct E as (c & Hin & Hc').
    apply String.eqb_eq in Hc'. subst c. contradiction.
Qed.

Lemma missing_columns_nil (df : CsvFrame) :
  missing_columns_of df = []
  <-> forall col, In col required_columns -> In col (csv_columns df).
Proof.
  split.
  - intros H col Hr.
    destruct (in_dec string_dec col (csv_columns df)) as [Hin | Hout];
      [exact Hin |].
    assert (Hm : In col (missing_columns_of df))
      by (apply missing_columns_In; split; assumption).
    rewrite H in Hm. destruct Hm.
  - intro H. destruct (missing_columns_of df) as [| col rest] eqn:E;
      [reflexivity |].
    assert (Hm : In col (missing_columns_of df))
      by (rewrite E; left; reflexivity).
    apply missing_columns_In in Hm. destruct Hm as [Hr Hc].
    exfalso. apply Hc. apply H. exact Hr.
Qed.

(** X16: [load_master_prices] returns a frame exactly when the file exists,
    the parser returns that frame and its header holds all six required
    column names, in any order and among any other columns; the frame is
    returned as it was read. *)
Theorem load_master_prices_succeeds_iff
    (file_exists : string -> bool) (read_csv : string -> option CsvFrame)
    (csv_path : string) (df : CsvFrame) :
  load_master_prices file_exists read_csv csv_path = Loaded df
  <-> file_exists csv_path = true
      /\ read_csv csv_path = Some df
      /\ forall col, In col required_columns -> In col (csv_columns df).
Proof.
  unfold load_master_prices. split.
  - destruct (file_exists csv_path); simpl; [| discriminate].
    destruct (read_csv csv_path) as [df' |]; [| discriminate].
    destruct (missing_columns_of df') as [| col rest] eqn:E;
      [| discriminate].
    intro H. injection H as H. subst df'.
    split; [reflexivity |]. split; [reflexivity |].
    apply missing_columns_nil. exact E.
  - intros (He & Hr & Hc). rewrite He, Hr. simpl.
    rewrite (proj2 (missing_columns_nil df) Hc). reflexivity.
Qed.

Lemma load_master_prices_succeeds_iff_witness :
  let df :=
    {| csv_columns :=
         ["note"; "contract_type"; "company_name"; "incentive_running";
          "incentive_shot"; "energy_unit_price"; "base_unit_price"]%string;
       csv_rows := [] |} in
  load_master_prices (fun _ => true) (fun _ => Some df) "data/master_prices.csv"
  = Loaded df.
Proof.
  intro df.
  apply (load_master_prices_succeeds_iff (fun _ => true) (fun _ => Some df)
           "data/master_prices.csv" df).
  split; [reflexivity |]. split; [reflexivity |].
  intros col Hin. simpl in Hin. simpl.
  repeat (destruct Hin as [Hin | Hin]; [subst col; tauto |]).
  destruct Hin.
Defined.

(** X17: when [load_master_prices] raises for missing columns, the names it
    lists are exactly the required column names absent from the header of
    the frame read, each once, and there is at least one. *)
Theorem load_master_prices_missing_columns
    (file_exists : string -> bool) (read_csv : string -> option CsvFrame)
    (csv_path : string) (missing : list string) :
  load_master_prices file_exists read_csv csv_path
  = LoadRaise (ValueError_missing_columns missing) ->
  exists df,
    file_exists csv_path = true
    /\ read_csv csv_path = Some df
    /\ missing <> []
    /\ NoDup missing
    /\ forall col,
         In col missing
         <-> In col required_columns /\ ~ In col (csv_columns df).
Proof.
  unfold load_master_prices.
  destruct (file_exists csv_path); simpl; [| discriminate].
  destruct (read_csv csv_path) as [df |]; [| discriminate].
  destruct (missing_columns_of df) as [| col rest] eqn:E; [discriminate |].
  intro H. injection H as H. subst missing. exists df.
  split; [reflexivity |]. split; [reflexivity |].
  split; [discriminate |]. rewrite <- E. split.
  - unfold missing_columns_of. apply NoDup_filter.
    unfold required_columns.
    repeat (constructor; [simpl; intuition discriminate |]). constructor.
  - intro c. apply missing_columns_In.
Qed.

Lemma load_master_prices_missing_columns_witness :
  let header := ["company_name"; "contract_type"]%string in
  let missing :=
    ["base_unit_price"; "energy_unit_price"; "incentive_shot";
     "incentive_running"]%string in
  exists df,
    Some {| csv_columns := header; csv_rows := [] |} = Some df
    /\ NoDup missing
    /\ forall col,
         In col missing
         <-> In col required_columns /\ ~ In col (csv_columns df).
Proof.
  intros header missing.
  destruct (load_master_prices_missing_columns (fun _ => true)
              (fun _ => Some {| csv_columns := header; csv_rows := [] |})
              "data/master_prices.csv" missing eq_refl)
    as (df & _ & Hread & _ & Hnodup & Hin).
  exists df. split; [exact Hread |]. split; [exact Hnodup | exact Hin].
Defined.

(** * The report *)









Lemma fold_left_Qplus_nonneg (l : list Q) (a : Q) :
  Forall (fun x => 0 <= x) l -> 0 <= a -> 0 <= fold_left Qplus l a.
Proof.
  intro H. revert a. induction H as [| x l Hx H IH]; intros a Ha; simpl;
    [exact Ha |].
  apply IH. lra.
Qed.





(** X21: the item sheet of the report and the breakdown shown on screen
    agree: for the same items, base, total and rate, the rows of
    [calculate_item_breakdown] are the item-sheet lines with their three
    integers written as yen text. *)
Theorem items_data_matches_breakdown
    (plan : SimplePlan) (items : list BillingItem) (base total : Q) :
  calculate_item_breakdown items base total (plan_rate plan)
  = map (fun line =>
           {| col_item := ir_item line;
              col_current := yen (ir_current line);
              col_proposed := yen (ir_proposed line);
              col_difference := yen (ir_reduction line) |})
      (items_data plan items base total).
Proof.
  rewrite calculate_item_breakdown_map. unfold items_data.
  rewrite map_map. apply map_ext. intro item. reflexivity.
Qed.

(** X22: a sheet name is the first 15 characters of the plan name and a
    three-character suffix, so it has at most 18 characters; the monthly
    and the item sheet never share a name; two plans get the same sheet
    names exactly when their names agree on the first 15 characters. *)
Theorem sheet_name_collisions (a b : SimplePlan) :
  (List.length (sheet_name a monthly_suffix) <= 18)%nat
  /\ (List.length (sheet_name a items_suffix) <= 18)%nat
  /\ sheet_name a monthly_suffix <> sheet_name b items_suffix
  /\ (sheet_name a monthly_suffix = sheet_name b monthly_suffix
      <-> firstn 15 (plan_p a) = firstn 15 (plan_p b))
  /\ (sheet_name a items_suffix = sheet_name b items_suffix
      <-> firstn 15 (plan_p a) = firstn 15 (plan_p b)).
Proof.
  unfold sheet_name, monthly_suffix, items_suffix.
  assert (Hlen : forall p : SimplePlan,
            (List.length (firstn 15 (plan_p p)) <= 15)%nat)
    by (intro p; apply firstn_le_length).
  split; [rewrite length_app; specialize (Hlen a); cbn [List.length]; lia |].
  split; [rewrite length_app; specialize (Hlen a); cbn [List.length]; lia |].
  split.
  - intro H.
    change (firstn 15 (plan_p a) ++ [95; 26376; 21029]%N)
      with (firstn 15 (plan_p a) ++ [95; 26376]%N ++ [21029]%N) in H.
    change (firstn 15 (plan_p b) ++ [95; 20869; 35379]%N)
      with (firstn 15 (plan_p b) ++ [95; 20869]%N ++ [35379]%N) in H.
    rewrite !app_assoc in H. apply app_inj_tail in H.
    destruct H as [_ H]. discriminate.
  - split; (split; [apply app_inv_tail | intro H; rewrite H; reflexivity]).
Qed.

(** * The input collection *)

Section Collection.

Variable base : Q.
Variables usage_of billed_of : Z -> Z -> Q.

Lemma month_step_records (year month : Z) (st : Collected) :
  st_month_records
    (month_step base year month (usage_of year month) (billed_of year month)
       st)
  = st_month_records st
    ++ map (record_for base usage_of billed_of)
         (filter (entered usage_of billed_of) [(year, month)]).
Proof.
  unfold month_step, entered, record_for. simpl.
  destruct (Qltb 0 (usage_of year month) || Qltb 0 (billed_of year month));
    simpl; [reflexivity | rewrite app_nil_r; reflexivity].
Qed.

Lemma months_loop_records (year : Z) (months : list Z) (st : Collected) :
  st_month_records
    (fold_left
       (fun st month =>
          month_step base year month (usage_of year month)
            (billed_of year month) st)
       months st)
  = st_month_records st
    ++ map (record_for base usage_of billed_of)
         (filter (entered usage_of billed_of) (map (pair year) months)).
Proof.
  revert st. induction months as [| m rest IH]; intro st.
  - simpl. rewrite app_nil_r. reflexivity.
  - cbn [fold_left]. rewrite IH, month_step_records.
    change (map (pair year) (m :: rest))
      with ([(year, m)] ++ map (pair year) rest).
    rewrite filter_app, map_app, app_assoc. reflexivity.
Qed.

Lemma years_loop_records (ys months : list Z) (st : Collected) :
  st_month_records
    (fold_left
       (fun st year =>
          fold_left
            (fun st month =>
               month_step base year month (usage_of year month)
                 (billed_of year month) st)
            months st)
       ys st)
  = st_month_records st
    ++ map (record_for base usage_of billed_of)
         (filter (entered usage_of billed_of) (list_prod ys months)).
Proof.
  revert st. induction ys as [| y rest IH]; intro st.
  - simpl. rewrite app_nil_r. reflexivity.
  - cbn [fold_left list_prod]. rewrite IH, months_loop_records.
    rewrite filter_app, map_app, app_assoc. reflexivity.
Qed.

Lemma collect_months_records :
  st_month_records (collect_months base usage_of billed_of)
  = map (record_for base usage_of billed_of)
      (filter (entered usage_of billed_of) year_months).
Proof.
  unfold collect_months. rewrite years_loop_records. reflexivity.
Qed.

Lemma py_sum_snoc (l : list Q) (x : Q) : py_sum (l ++ [x]) = py_sum l + x.
Proof. unfold py_sum. rewrite fold_left_app. reflexivity. Qed.

Lemma month_step_totals (year month : Z) (u p : Q) (st : Collected) :
  totals_match st -> totals_match (month_step base year month u p st).
Proof.
  intros [Hc Hu]. unfold month_step.
  destruct (Qltb 0 u || Qltb 0 p); [| split; assumption].
  unfold totals_match. cbn [st_month_records st_total_actual_cost
                              st_total_usage_kwh].
  rewrite !map_app. cbn [map rec_billed rec_usage].
  rewrite !py_sum_snoc, Hc, Hu. split; reflexivity.
Qed.

Lemma collect_months_totals :
  totals_match (collect_months base usage_of billed_of).
Proof.
  unfold collect_months.
  assert (Hinner : forall year months st, totals_match st ->
            totals_match
              (fold_left
                 (fun st month =>
                    month_step base year month (usage_of year month)
                      (billed_of year month) st)
                 months st)).
  { intros year months. induction months as [| m rest IH]; intros st H;
      [exact H |].
    cbn [fold_left]. apply IH. apply month_step_totals. exact H. }
  assert (Houter : forall ys st, totals_match st ->
            totals_match
              (fold_left
                 (fun st year =>
                    fold_left
                      (fun st month =>
                         month_step base year month (usage_of year month)
                           (billed_of year month) st)
                      months_of_year st)
                 ys st)).
  { induction ys as [| y rest IH]; intros st H; [exact H |].
    cbn [fold_left]. apply IH. apply Hinner. exact H. }
  apply Houter. split; reflexivity.
Qed.

End Collection.

(** X23: the month records collected from the input fields are, in input
    order (year by year, month by month), one record for every month in
    which a usage or a billed amount greater than 0 was entered; its billed
    amount is the entered one when that is greater than 0 and the base
    monthly cost otherwise, and its input type says which. *)
Theorem collect_months_records_spec
    (base : Q) (usage_of billed_of : Z -> Z -> Q) :
  st_month_records (collect_months base usage_of billed_of)
  = map (record_for base usage_of billed_of)
      (filter (entered usage_of billed_of) year_months)
  /\ (List.length (st_month_records (collect_months base usage_of billed_of))
      <= 36)%nat.
Proof.
  split; [apply collect_months_records |].
  rewrite collect_months_records, length_map.
  apply Nat.le_trans with (List.length year_months);
    [apply filter_length_le | reflexivity].
Qed.

Lemma calculation_period_invariant
    (base : Q) (usage_of billed_of : Z -> Z -> Q) :
  let period := calculation_period base usage_of billed_of in
  (1 <= calc_months period)%nat
  /\ calc_months period = List.length (period_month_records period)
  /\ period_total_actual_cost period
     == py_sum (map rec_billed (period_month_records period))
  /\ period_total_usage_kwh period
     == py_sum (map rec_usage (period_month_records period)).
Proof.
  intro period. unfold period, calculation_period.
  destruct (collect_months_totals base usage_of billed_of) as [Hc Hu].
  destruct (st_month_records (collect_months base usage_of billed_of))
    as [| rec recs] eqn:E.
  - cbn [List.length Nat.eqb calc_months period_total_actual_cost
           period_total_usage_kwh period_month_records app map].
    simpl in Hu. split; [lia |]. split; [reflexivity |].
    unfold py_sum in *. simpl in *. split; lra.
  - cbn [List.length Nat.eqb calc_months period_total_actual_cost
           period_total_usage_kwh period_month_records].
    split; [lia |]. split; [reflexivity |]. split; assumption.
Qed.

(** X24: the period handed to the calculations always has at least one
    month; its number of months is the number of its records, and its total
    cost and total usage are the sums of the billed amounts and of the
    usages of its records. *)
Theorem calculation_period_consistent
    (base : Q) (usage_of billed_of : Z -> Z -> Q) :
  let period := calculation_period base usage_of billed_of in
  (1 <= calc_months period)%nat
  /\ calc_months period = List.length (period_month_records period)
  /\ period_total_actual_cost period
     == py_sum (map rec_billed (period_month_records period))
  /\ period_total_usage_kwh period
     == py_sum (map rec_usage (period_month_records period)).
Proof. apply calculation_period_invariant. Qed.

Lemma fold_left_fixed {A B : Type} (f : A -> B -> A) (l : list B) (a : A) :
  (forall x, In x l -> forall a', f a' x = a') -> fold_left f l a = a.
Proof.
  revert a. induction l as [| x l IH]; intros a H; [reflexivity |].
  cbn [fold_left]. rewrite (H x (or_introl eq_refl)).
  apply IH. intros y Hy. apply H. right. exact Hy.
Qed.

(** X25: when no usage and no billed amount greater than 0 is entered for
    any month, the period is one base month: a single record with the base
    monthly cost as billed amount, which is also the total cost. *)
Theorem calculation_period_without_input
    (base : Q) (usage_of billed_of : Z -> Z -> Q) :
  (forall year month, In year years -> In month months_of_year ->
     usage_of year month <= 0 /\ billed_of year month <= 0) ->
  calculation_period base usage_of billed_of
  = {| calc_months := 1;
       period_total_actual_cost := base;
       period_total_usage_kwh := 0;
       period_month_records :=
         [ {| rec_year := StrLabel dash; rec_month := StrLabel base_month;
              rec_usage := 0; rec_billed := base;
              rec_input_type := base_value |} ] |}.
Proof.
  intro Hnone.
  assert (Hinit : collect_months base usage_of billed_of
                  = {| st_month_records := []; st_total_usage_kwh := 0;
                       st_total_actual_cost := 0 |}).
  { unfold collect_months. apply fold_left_fixed. intros year Hy st.
    apply fold_left_fixed. intros month Hm st'.
    destruct (Hnone year month Hy Hm) as [Hu Hp].
    unfold month_step.
    rewrite (proj2 (Qltb_false 0 (usage_of year month)) Hu).
    rewrite (proj2 (Qltb_false 0 (billed_of year month)) Hp).
    reflexivity. }
  unfold calculation_period. rewrite Hinit. reflexivity.
Qed.

Lemma calculation_period_without_input_witness :
  period_month_records (calculation_period 20000 (fun _ _ => 0) (fun _ _ => 0))
  = [ {| rec_year := StrLabel dash; rec_month := StrLabel base_month;
         rec_usage := 0; rec_billed := 20000;
         rec_input_type := base_value |} ].
Proof.
  rewrite (calculation_period_without_input 20000 (fun _ _ => 0)
             (fun _ _ => 0)).
  - reflexivity.
  - intros year month _ _. split; unfold Qle; simpl; lia.
Defined.

(** X26: the report never fails on the records of the period, and the
    total line of every monthly sheet shows the totals of the period: as
    many lines as months, the total cost as billed amount and the total
    usage as usage. *)
Theorem monthly_sheet_of_period
    (plan : SimplePlan) (base : Q) (usage_of billed_of : Z -> Z -> Q) :
  let period := calculation_period base usage_of billed_of in
  exists body total,
    monthly_sheet plan (period_month_records period)
    = Written (body ++ [total])
    /\ List.length body = calc_months period
    /\ mr_billed total == period_total_actual_cost period
    /\ mr_usage total == period_total_usage_kwh period.
Proof.
  intro period.
  destruct (calculation_period_invariant base usage_of billed_of)
    as (Hpos & Hlen & Hc & Hu).
  fold period in Hpos, Hlen, Hc, Hu.
  exists (map (monthly_row (plan_rate plan)) (period_month_records period)),
         (sum_row (map (monthly_row (plan_rate plan))
                     (period_month_records period))).
  split.
  - unfold monthly_sheet.
    destruct (period_month_records period) as [| rec recs];
      [simpl in Hlen; lia | reflexivity].
  - split; [rewrite length_map; symmetry; exact Hlen |].
    unfold sum_row. cbn [mr_billed mr_usage]. rewrite !map_map.
    cbn [monthly_row mr_billed mr_usage]. split; symmetry; assumption.
Qed.




(** X28: with a base monthly cost that is not negative, no record of the
    period has a negative billed amount and the total cost of the period is
    not negative, whatever is entered. *)
Theorem calculation_period_nonnegative
    (base : Q) (usage_of billed_of : Z -> Z -> Q) :
  0 <= base ->
  let period := calculation_period base usage_of billed_of in
  (forall rec, In rec (period_month_records period) -> 0 <= rec_billed rec)
  /\ 0 <= period_total_actual_cost period.
Proof.
  intros Hb period.
  assert (Hrec : forall rec, In rec (period_month_records period) ->
                   0 <= rec_billed rec).
  { unfold period, calculation_period. rewrite collect_months_records.
    destruct (map (record_for base usage_of billed_of)
                (filter (entered usage_of billed_of) year_months))
      as [| r rs] eqn:E.
    - cbn [List.length Nat.eqb period_month_records app].
      intros rec [H | []]. subst rec. exact Hb.
    - cbn [List.length Nat.eqb period_month_records]. rewrite <- E.
      intros rec Hin. apply in_map_iff in Hin.
      destruct Hin as (ym & Hrec & _). subst rec.
      unfold record_for. cbn [rec_billed].
      destruct (Qltb 0 (billed_of (fst ym) (snd ym))) eqn:Ep; [| exact Hb].
      apply Qltb_true in Ep. lra. }
  split; [exact Hrec |].
  destruct (calculation_period_invariant base usage_of billed_of)
    as (_ & _ & Hc & _).
  fold period in Hc. rewrite Hc. unfold py_sum.
  apply fold_left_Qplus_nonneg; [| lra].
  apply Forall_forall. intros x Hx. apply in_map_iff in Hx.
  destruct Hx as (rec & Hx & Hin). subst x. apply Hrec. exact Hin.
Qed.

Lemma calculation_period_nonnegative_witness :
  0 <= period_total_actual_cost
         (calculation_period 20000 (fun _ _ => 100) (fun _ _ => 0)).
Proof.
  apply (calculation_period_nonnegative 20000 (fun _ _ => 100)
           (fun _ _ => 0)).
  unfold Qle; simpl; lia.
Defined.
